(** * DeepRacer_Configure.ipynb: the configuration notebook, cell by cell

    The notebook is a straight-line Python script split into code cells.
    Each code cell is embedded as a computation over the state of the
    IPython kernel: the variables the cells bind and the chronological
    record of every call that leaves the notebook (SDK calls, printing,
    rich display, shell commands).  A Python exception ends the cell and,
    under "Run All", the notebook; what was done before it stays done. *)

From Stdlib Require Import Ascii.
From stdpp Require Import base strings list gmap.

(** ** Python values, exceptions, outcomes *)

(** The values that occur in the configuration mapping. *)
Inductive pyval : Type :=
  | PyNone
  | PyStr (s : string).

#[global] Instance pyval_eq_dec : EqDecision pyval.
Proof. solve_decision. Defined.

(** A raised exception: its class name and its message. *)
Record pyexn : Type := PyExn { exn_class : string; exn_msg : string }.

#[global] Instance pyexn_eq_dec : EqDecision pyexn.
Proof. solve_decision. Defined.

Inductive outcome (A : Type) : Type :=
  | Returned (a : A)
  | Raised (e : pyexn).
Arguments Returned {A} a.
Arguments Raised {A} e.

(** Line feed, written [\n] in the Python literals. *)
Definition LF : string := String "010"%char "".

(** ** The world outside the notebook *)

(** [sagemaker.session.Session()] yields an object of which the notebook
    reads one attribute. *)
Record session : Type := Session { boto_region_name : string }.

(** Everything the notebook calls but does not define.  Each field is the
    answer the environment gives when the call is made. *)
Record world : Type := World {
  (** [sagemaker.session.Session()] *)
  sagemaker_session : outcome session;
  (** [sagemaker.get_execution_role()] *)
  sagemaker_get_execution_role : outcome string;
  (** [misc.get_execution_role(role_name)] from [common/misc.py] *)
  misc_get_execution_role : string → outcome string;
  (** the system shell behind IPython's [!]: exit status and the words
      written to standard output, for an argument vector *)
  system : list string → nat * list string
}.

(** ** Observable calls *)

Inductive event : Type :=
  | EvSession
  | EvPrimaryRole
  | EvFallbackRole (role_name : string)
  | EvPrint (text : string)
  | EvDisplay (markdown : string)
  | EvEngineInit (config : gmap string pyval)
  | EvDeleteSimulations
  | EvDeleteS3Resources
  | EvSystem (argv : list string).

Definition is_role_call (e : event) : bool :=
  match e with EvPrimaryRole | EvFallbackRole _ => true | _ => false end.

Definition is_fallback_call (e : event) : bool :=
  match e with EvFallbackRole _ => true | _ => false end.

Definition is_print (e : event) : bool :=
  match e with EvPrint _ => true | _ => false end.

(** The delete requests of the engine facade. *)
Definition is_deletion (e : event) : bool :=
  match e with EvDeleteSimulations | EvDeleteS3Resources => true | _ => false end.

(** ** The engine facade *)

(** Modelled from the spec: [src/core/DeepRacerEngine.py] is not among the
    sources.  The spec gives the surface the notebook consumes: a
    constructor taking a configuration mapping with key [job_name], and two
    cleanup methods without arguments and without observable return value.
    The object keeps the mapping it was built from. *)
Record DeepRacerEngine : Type := Engine { engine_config : gmap string pyval }.

(** ** Kernel state *)

(** The variables bound by the cells; [None] is an unbound name. *)
Record namespace : Type := Namespace {
  sage_session : option session;
  aws_region : option string;
  sagemaker_role : option string;
  deepRacer : option DeepRacerEngine
}.

Record kernel : Type := Kernel { vars : namespace; log : list event }.

Definition fresh_namespace : namespace := Namespace None None None None.
Definition fresh_kernel : kernel := Kernel fresh_namespace [].

Definition set_sage_session (v : session) (n : namespace) : namespace :=
  Namespace (Some v) (aws_region n) (sagemaker_role n) (deepRacer n).
Definition set_aws_region (v : string) (n : namespace) : namespace :=
  Namespace (sage_session n) (Some v) (sagemaker_role n) (deepRacer n).
Definition set_sagemaker_role (v : string) (n : namespace) : namespace :=
  Namespace (sage_session n) (aws_region n) (Some v) (deepRacer n).
Definition set_deepRacer (v : DeepRacerEngine) (n : namespace) : namespace :=
  Namespace (sage_session n) (aws_region n) (sagemaker_role n) (Some v).

(** ** The cell monad: state that survives an exception *)

Definition M (A : Type) : Type := kernel → outcome A * kernel.

#[global] Instance M_ret : MRet M := λ A a k, (Returned a, k).

#[global] Instance M_bind : MBind M := λ A B f m k,
  match m k with
  | (Returned a, k') => f a k'
  | (Raised e, k') => (Raised e, k')
  end.

(** [raise E(msg)] *)
Definition raise {A} (e : pyexn) : M A := λ k, (Raised e, k).

(** [try: body / except: handler] with a bare [except], which catches every
    exception whatever its class and does not bind it. *)
Definition try_except {A} (body handler : M A) : M A :=
  λ k, match body k with
       | (Returned a, k') => (Returned a, k')
       | (Raised _, k') => handler k'
       end.

Definition emit (e : event) : M unit :=
  λ k, (Returned tt, Kernel (vars k) (log k ++ [e])).

Definition assign (upd : namespace → namespace) : M unit :=
  λ k, (Returned tt, Kernel (upd (vars k)) (log k)).

(** Reading a variable; an unbound name is a [NameError]. *)
Definition name_error (x : string) : pyexn :=
  PyExn "NameError" ("name '" +:+ x +:+ "' is not defined").

Definition read {A} (x : string) (field : namespace → option A) : M A :=
  λ k, match field (vars k) with
       | Some v => (Returned v, k)
       | None => (Raised (name_error x), k)
       end.

(** An external call: recorded, then answered by the world. *)
Definition call {A} (e : event) (answer : outcome A) : M A :=
  emit e;;
  match answer with
  | Returned a => mret a
  | Raised x => raise x
  end.

(** The events a computation adds to the record are those after the ones
    already there. *)
Definition added (before after : kernel) : list event :=
  drop (length (log before)) (log after).

(** ** Text helpers *)

(** The double-quote character of the JSON text. *)
Definition DQ : string := String "034"%char "".

(** [hay] contains [needle] verbatim. *)
Definition contains (hay needle : string) : Prop :=
  ∃ pre post, hay = pre +:+ needle +:+ post.

Fixpoint is_prefix (p s : string) : bool :=
  match p, s with
  | "", _ => true
  | String a p', String b s' => bool_decide (a = b) && is_prefix p' s'
  | String _ _, "" => false
  end.

Fixpoint is_infix (p s : string) : bool :=
  is_prefix p s ||
  match s with
  | "" => false
  | String _ s' => is_infix p s'
  end.

(** Python's [s.split(sep)] for a one-character separator. *)
Fixpoint split_on (sep : ascii) (s : string) : list string :=
  match s with
  | "" => [""]
  | String c s' =>
      if bool_decide (c = sep) then "" :: split_on sep s'
      else match split_on sep s' with
           | [] => [String c ""]
           | h :: t => String c h :: t
           end
  end.

(** ** Markdown help *)

(** Modelled from the spec: [common/markdown_helper.py] is not among the
    sources.  The spec describes each generator as a pure function from a
    role identifier to a formatted instructional string; the wording of
    that string is taken from the outputs stored in the notebook for cells
    10, 12 and 14, which show the role under its name, the part of the
    identifier after the last [/], as link text and in the console URL. *)
Definition role_name_of (role : string) : string :=
  List.last (split_on "/"%char role) "".

Definition iam_role_url (role_name : string) : string :=
  "https://console.aws.amazon.com/iam/home#/roles/" +:+ role_name.

Definition go_to_iam_console (role_name : string) : string :=
  "1. Go to IAM console to edit current SageMaker role: [" +:+ role_name +:+
  "](" +:+ iam_role_url role_name +:+ ")." +:+ LF.

Definition trust_policy_json : string :=
  String.concat "" [
    "```json" +:+ LF;
    "            {" +:+ LF;
    "              " +:+ DQ +:+ "Version" +:+ DQ +:+ ": " +:+ DQ +:+ "2012-10-17" +:+ DQ +:+ "," +:+ LF;
    "              " +:+ DQ +:+ "Statement" +:+ DQ +:+ ": [" +:+ LF;
    "                {" +:+ LF;
    "                  " +:+ DQ +:+ "Effect" +:+ DQ +:+ ": " +:+ DQ +:+ "Allow" +:+ DQ +:+ "," +:+ LF;
    "                  " +:+ DQ +:+ "Principal" +:+ DQ +:+ ": {" +:+ LF;
    "                    " +:+ DQ +:+ "Service" +:+ DQ +:+ ": [" +:+ LF;
    "                      " +:+ DQ +:+ "sagemaker.amazonaws.com" +:+ DQ +:+ "," +:+ LF;
    "                      " +:+ DQ +:+ "robomaker.amazonaws.com" +:+ DQ +:+ LF;
    "                    ]" +:+ LF;
    "                  }," +:+ LF;
    "                  " +:+ DQ +:+ "Action" +:+ DQ +:+ ": " +:+ DQ +:+ "sts:AssumeRole" +:+ DQ +:+ LF;
    "                }" +:+ LF;
    "              ]" +:+ LF;
    "            }```" +:+ LF ].

(** Modelled from the spec: the generator called in cell 10, after the
    output stored for that cell. *)
Definition generate_help_for_robomaker_trust_relationship (role : string) : string :=
  go_to_iam_console (role_name_of role) +:+
  "2. Next, go to the `Trust relationships tab` and click on `Edit Trust Relationship.` " +:+ LF +:+
  "3. Replace the JSON blob with the following:" +:+ LF +:+
  trust_policy_json +:+
  "4. Once this is complete, click on Update Trust Policy and you are done.".

Definition attach_policy (policy : string) : string :=
  "2. Next, go to the `Permissions tab` and click on `Attach Policy.` " +:+ LF +:+
  "3. Search and select `" +:+ policy +:+ "` policy" +:+ LF.

(** Modelled from the spec: the generator called in cell 12, after the
    output stored for that cell, policy name included. *)
Definition generate_s3_write_permission_for_sagemaker_role (role : string) : string :=
  go_to_iam_console (role_name_of role) +:+
  attach_policy "AmazonKinesisVideoStreamsFullAccess".

(** Modelled from the spec: the generator called in cell 14, after the
    output stored for that cell, policy name included. *)
Definition generate_kinesis_create_permission_for_sagemaker_role (role : string) : string :=
  go_to_iam_console (role_name_of role) +:+
  attach_policy "AmazonS3FullAccess".

(** ** Outputs stored in the notebook file *)

Module Stored.

(** Second line of the stream output of cell 7: the role in use when the
    notebook was saved. *)
Definition role : string :=
  "arn:aws:iam::170991494985:role/service-role/AmazonSageMaker-ExecutionRole-20191119T175598".

Definition cell_7_stdout : string :=
  "Using Sagemaker IAM role arn: " +:+ LF +:+
  "arn:aws:iam::170991494985:role/service-role/AmazonSageMaker-ExecutionRole-20191119T175598" +:+ LF.

Definition cell_10_markdown : string :=
  String.concat "" [
    "1. Go to IAM console to edit current SageMaker role: [AmazonSageMaker-ExecutionRole-20191119T175598](https://console.aws.amazon.com/iam/home#/roles/AmazonSageMaker-ExecutionRole-20191119T175598)." +:+ LF;
    "2. Next, go to the `Trust relationships tab` and click on `Edit Trust Relationship.` " +:+ LF;
    "3. Replace the JSON blob with the following:" +:+ LF;
    "```json" +:+ LF;
    "            {" +:+ LF;
    "              " +:+ DQ +:+ "Version" +:+ DQ +:+ ": " +:+ DQ +:+ "2012-10-17" +:+ DQ +:+ "," +:+ LF;
    "              " +:+ DQ +:+ "Statement" +:+ DQ +:+ ": [" +:+ LF;
    "                {" +:+ LF;
    "                  " +:+ DQ +:+ "Effect" +:+ DQ +:+ ": " +:+ DQ +:+ "Allow" +:+ DQ +:+ "," +:+ LF;
    "                  " +:+ DQ +:+ "Principal" +:+ DQ +:+ ": {" +:+ LF;
    "                    " +:+ DQ +:+ "Service" +:+ DQ +:+ ": [" +:+ LF;
    "                      " +:+ DQ +:+ "sagemaker.amazonaws.com" +:+ DQ +:+ "," +:+ LF;
    "                      " +:+ DQ +:+ "robomaker.amazonaws.com" +:+ DQ +:+ LF;
    "                    ]" +:+ LF;
    "                  }," +:+ LF;
    "                  " +:+ DQ +:+ "Action" +:+ DQ +:+ ": " +:+ DQ +:+ "sts:AssumeRole" +:+ DQ +:+ LF;
    "                }" +:+ LF;
    "              ]" +:+ LF;
    "            }```" +:+ LF;
    "4. Once this is complete, click on Update Trust Policy and you are done." ].

Definition cell_12_markdown : string :=
  String.concat "" [
    "1. Go to IAM console to edit current SageMaker role: [AmazonSageMaker-ExecutionRole-20191119T175598](https://console.aws.amazon.com/iam/home#/roles/AmazonSageMaker-ExecutionRole-20191119T175598)." +:+ LF;
    "2. Next, go to the `Permissions tab` and click on `Attach Policy.` " +:+ LF;
    "3. Search and select `AmazonKinesisVideoStreamsFullAccess` policy" +:+ LF ].

Definition cell_14_markdown : string :=
  String.concat "" [
    "1. Go to IAM console to edit current SageMaker role: [AmazonSageMaker-ExecutionRole-20191119T175598](https://console.aws.amazon.com/iam/home#/roles/AmazonSageMaker-ExecutionRole-20191119T175598)." +:+ LF;
    "2. Next, go to the `Permissions tab` and click on `Attach Policy.` " +:+ LF;
    "3. Search and select `AmazonS3FullAccess` policy" +:+ LF ].

Definition cell_16_stdout : string :=
  "***Deep Racer Engine Backend***" +:+ LF.

End Stored.

(** ** The engine facade, continued *)

(** The line the constructor prints, as stored in the output of cell 16. *)
Definition engine_banner : string := "***Deep Racer Engine Backend***".

(** Modelled from the spec: the constructor of [DeepRacerEngine], whose code
    is not among the sources.  Following the spec, construction does not
    raise, keeps the configuration and deletes nothing. *)
Definition DeepRacerEngine_init (config : gmap string pyval) : M DeepRacerEngine :=
  emit (EvEngineInit config);;
  emit (EvPrint engine_banner);;
  mret (Engine config).

(** Modelled from the spec: a cleanup method of the engine; it issues its
    delete request and returns no value. *)
Definition delete_all_simulations (self : DeepRacerEngine) : M unit :=
  emit EvDeleteSimulations.

(** Modelled from the spec: the other cleanup method of the engine. *)
Definition delete_s3_simulation_resources (self : DeepRacerEngine) : M unit :=
  emit EvDeleteS3Resources.

(** ** Shell lines *)

(** A word of a shell line: literal text, or a command substitution
    [$(...)] whose inner command is made of literal words. *)
Inductive word : Type :=
  | Lit (s : string)
  | CmdSubst (argv : list string).

Definition is_flag (s : string) : bool :=
  match s with
  | String "-"%char _ => true
  | _ => false
  end.

Definition flags_of_word (x : word) : list string :=
  match x with
  | Lit s => filter is_flag [s]
  | CmdSubst argv => filter is_flag argv
  end.

(** The flags written on a line, those of the substituted commands included. *)
Definition flags_of (line : list word) : list string :=
  line ≫= flags_of_word.

Definition no_flags (line : list word) : Prop := flags_of line = [].

(** [!docker rm -f $(docker ps -a -q);] *)
Definition docker_rm_line : list word :=
  [Lit "docker"; Lit "rm"; Lit "-f"; CmdSubst ["docker"; "ps"; "-a"; "-q"]].

(** [!docker rmi -f $(docker images -q);] *)
Definition docker_rmi_line : list word :=
  [Lit "docker"; Lit "rmi"; Lit "-f"; CmdSubst ["docker"; "images"; "-q"]].

(** ** The code cells *)

Definition supported_regions : list string :=
  ["us-west-2"; "us-east-1"; "eu-west-1"].

(** Two adjacent literals, joined by Python without a separator. *)
Definition region_error_message : string :=
  "This notebook uses RoboMaker which is available only in US East (N. Virginia)," +:+
  "US West (Oregon) and EU (Ireland). Please switch to one of these regions.".

Definition region_error : pyexn := PyExn "Exception" region_error_message.

(** [if aws_region not in [...]: raise Exception(...)] *)
Definition region_check (region : string) : M unit :=
  if bool_decide (region ∈ supported_regions) then mret tt
  else raise region_error.

(** [{'job_name':'None'}] *)
Definition engine_configuration : gmap string pyval :=
  {[ "job_name" := PyStr "None" ]}.

Section Notebook.

Context (w : world).

(** Running a command: recorded, answered by the world. *)
Definition run (argv : list string) : M (nat * list string) :=
  emit (EvSystem argv);;
  mret (system w argv).

(** Word expansion: a substitution runs its command and is replaced by
    the words the command wrote. *)
Definition expand (x : word) : M (list string) :=
  match x with
  | Lit s => mret [s]
  | CmdSubst argv => r ← run argv; mret r.2
  end.

Fixpoint expand_all (line : list word) : M (list string) :=
  match line with
  | [] => mret []
  | x :: rest =>
      a ← expand x;
      b ← expand_all rest;
      mret (a ++ b)
  end.

(** IPython's [!line]: the exit status is dropped and nothing is raised. *)
Definition bang (line : list word) : M unit :=
  argv ← expand_all line;
  run argv;;
  mret tt.

Definition cell_5 : M unit :=
  s ← call EvSession (sagemaker_session w);
  assign (set_sage_session s);;
  s ← read "sage_session" sage_session;
  assign (set_aws_region (boto_region_name s));;
  r ← read "aws_region" aws_region;
  region_check r.

(** The [try]/[except] statement of cell 7. *)
Definition role_resolution : M unit :=
  try_except
    (r ← call EvPrimaryRole (sagemaker_get_execution_role w);
     assign (set_sagemaker_role r))
    (r ← call (EvFallbackRole "sagemaker") (misc_get_execution_role w "sagemaker");
     assign (set_sagemaker_role r)).

Definition cell_7 : M unit :=
  role_resolution;;
  r ← read "sagemaker_role" sagemaker_role;
  emit (EvPrint ("Using Sagemaker IAM role arn: " +:+ LF +:+ r)).

(** [display(Markdown(generate(sagemaker_role)))] *)
Definition display_help (generate : string → string) : M unit :=
  r ← read "sagemaker_role" sagemaker_role;
  emit (EvDisplay (generate r)).

Definition cell_10 : M unit :=
  display_help generate_help_for_robomaker_trust_relationship.

Definition cell_12 : M unit :=
  display_help generate_s3_write_permission_for_sagemaker_role.

Definition cell_14 : M unit :=
  display_help generate_kinesis_create_permission_for_sagemaker_role.

Definition cell_16 : M unit :=
  e ← DeepRacerEngine_init engine_configuration;
  assign (set_deepRacer e).

(** Cells 18 and 22 hold one commented-out line each. *)
Definition cell_18 : M unit := mret tt.

Definition cell_20 : M unit :=
  bang docker_rm_line;;
  bang docker_rmi_line.

Definition cell_22 : M unit := mret tt.

(** The lines of cells 18 and 22 once the comment mark is removed. *)
Definition cell_18_enabled : M unit :=
  e ← read "deepRacer" deepRacer;
  delete_all_simulations e.

Definition cell_22_enabled : M unit :=
  e ← read "deepRacer" deepRacer;
  delete_s3_simulation_resources e.

(** "Run All": the code cells in order, stopping at the first exception.
    The import cell comes first and binds module names only. *)
Definition run_all : M unit :=
  cell_5;; cell_7;; cell_10;; cell_12;; cell_14;;
  cell_16;; cell_18;; cell_20;; cell_22.

End Notebook.

(** ** Worlds used to run the notebook on concrete inputs *)

(** The same world with another answer to the primary role call. *)
Definition with_primary (answer : outcome string) (w : world) : world :=
  World (sagemaker_session w) answer (misc_get_execution_role w) (system w).

(** The same world with another [misc.get_execution_role]. *)
Definition with_fallback (f : string → outcome string) (w : world) : world :=
  World (sagemaker_session w) (sagemaker_get_execution_role w) f (system w).

(** A world in which the session reports [region], the two role calls
    answer as given, and every shell command succeeds silently. *)
Definition sample_world (region : string) (primary fallback : outcome string) : world :=
  World (Returned (Session region)) primary (λ _, fallback) (λ _, (0, [])).

Definition access_denied : pyexn :=
  PyExn "ClientError" "An error occurred (AccessDenied) when calling the GetRole operation".

Definition no_credentials : pyexn :=
  PyExn "NoCredentialsError" "Unable to locate credentials".

(** A machine with two containers and one image, where removing images
    fails. *)
Definition busy_docker (argv : list string) : nat * list string :=
  match argv with
  | ["docker"; "ps"; "-a"; "-q"] => (0, ["13c58ab56e75"; "3ba902e80d7c"])
  | ["docker"; "images"; "-q"] => (0, ["7b51f08efa79"])
  | "docker" :: "rmi" :: _ => (1, [])
  | _ => (0, [])
  end.

(** ** The permission setup as a whole *)

(** The cells above the clean-up heading, in notebook order: what
    "Run All Above" executes from cell 15. *)
Definition permission_setup (w : world) : M unit :=
  cell_5 w;; cell_7 w;; cell_10;; cell_12;; cell_14.

(** The value, or the exception, that the two role answers of a world
    leave to the [try]/[except] of cell 7. *)
Definition resolved_role (w : world) : outcome string :=
  match sagemaker_get_execution_role w with
  | Returned r => Returned r
  | Raised _ => misc_get_execution_role w "sagemaker"
  end.

(** The role calls that the statement makes in a world. *)
Definition role_calls (w : world) : list event :=
  match sagemaker_get_execution_role w with
  | Returned _ => [EvPrimaryRole]
  | Raised _ => [EvPrimaryRole; EvFallbackRole "sagemaker"]
  end.

(** The argument of [print] in cell 7. *)
Definition role_line (role : string) : string :=
  "Using Sagemaker IAM role arn: " +:+ LF +:+ role.

(** The three displays of cells 10, 12 and 14 for one role. *)
Definition help_displays (role : string) : list event :=
  [EvDisplay (generate_help_for_robomaker_trust_relationship role);
   EvDisplay (generate_s3_write_permission_for_sagemaker_role role);
   EvDisplay (generate_kinesis_create_permission_for_sagemaker_role role)].

(** The variables of a kernel once cell 5 has bound the session and its
    region. *)
Definition after_cell_5 (s : session) (n : namespace) : namespace :=
  set_aws_region (boto_region_name s) (set_sage_session s n).

(** A machine without containers or images. *)
Definition empty_docker (argv : list string) : nat * list string :=
  match argv with
  | "docker" :: "rm" :: _ => (1, [])
  | "docker" :: "rmi" :: _ => (1, [])
  | _ => (0, [])
  end.

(** ** Framing predicates *)

(** [adds_only P m]: whatever [m] does, it keeps the record it found and
    appends events that all satisfy [P]. *)
Definition adds_only {A} (P : event → Prop) (m : M A) : Prop :=
  ∀ k, ∃ evs, log (m k).2 = log k ++ evs ∧ Forall P evs.

Definition any_event (e : event) : Prop := True.

(** ** The monad on known results *)

Lemma bind_returned {A B} (m : M A) (f : A → M B) k a k' :
  m k = (Returned a, k') → (m ≫= f) k = f a k'.
Proof. unfold mbind, M_bind. by intros ->. Qed.

Lemma bind_raised {A B} (m : M A) (f : A → M B) k e k' :
  m k = (Raised e, k') → (m ≫= f) k = (Raised e, k').
Proof. unfold mbind, M_bind. by intros ->. Qed.

Lemma added_app k vs evs : added k (Kernel vs (log k ++ evs)) = evs.
Proof. unfold added. simpl. by rewrite drop_app_length. Qed.

(** ** Framing: which events a computation can add *)

Section Framing.

Context (P : event → Prop).

Lemma adds_only_ret {A} (a : A) : adds_only P (mret a : M A).
Proof. intros k. exists []. by rewrite app_nil_r. Qed.

Lemma adds_only_raise {A} e : adds_only P (raise e : M A).
Proof. intros k. exists []. by rewrite app_nil_r. Qed.

Lemma adds_only_assign upd : adds_only P (assign upd).
Proof. intros k. exists []. simpl. by rewrite app_nil_r. Qed.

Lemma adds_only_read {A} x (field : namespace → option A) :
  adds_only P (read x field).
Proof.
  intros k. exists []. unfold read.
  destruct (field (vars k)); by rewrite app_nil_r.
Qed.

Lemma adds_only_emit e : P e → adds_only P (emit e).
Proof. intros He k. exists [e]. split; [done | by constructor]. Qed.

Lemma adds_only_bind {A B} (m : M A) (f : A → M B) :
  adds_only P m → (∀ a, adds_only P (f a)) → adds_only P (m ≫= f).
Proof.
  intros Hm Hf k. destruct (Hm k) as (evs & Hlog & Hevs).
  unfold mbind, M_bind. destruct (m k) as [[a|e] k1]; simpl in *.
  - destruct (Hf a k1) as (evs' & Hlog' & Hevs').
    exists (evs ++ evs'). split.
    + by rewrite Hlog', Hlog, app_assoc.
    + by apply Forall_app.
  - by exists evs.
Qed.

Lemma adds_only_try {A} (body handler : M A) :
  adds_only P body → adds_only P handler → adds_only P (try_except body handler).
Proof.
  intros Hb Hh k. destruct (Hb k) as (evs & Hlog & Hevs).
  unfold try_except. destruct (body k) as [[a|e] k1]; simpl in *.
  - by exists evs.
  - destruct (Hh k1) as (evs' & Hlog' & Hevs').
    exists (evs ++ evs'). split.
    + by rewrite Hlog', Hlog, app_assoc.
    + by apply Forall_app.
Qed.

Lemma adds_only_call {A} e (answer : outcome A) :
  P e → adds_only P (call e answer).
Proof.
  intros He. unfold call. apply adds_only_bind.
  - by apply adds_only_emit.
  - intros _. destruct answer; [apply adds_only_ret | apply adds_only_raise].
Qed.

Lemma adds_only_region_check r : adds_only P (region_check r).
Proof.
  unfold region_check. case_bool_decide;
    [apply adds_only_ret | apply adds_only_raise].
Qed.

Lemma adds_only_added {A} (m : M A) k :
  adds_only P m → Forall P (added k (m k).2).
Proof.
  intros Hm. destruct (Hm k) as (evs & Hlog & Hevs).
  unfold added. by rewrite Hlog, drop_app_length.
Qed.

End Framing.

Create HintDb frame.
#[global] Hint Resolve adds_only_ret adds_only_raise adds_only_assign
  adds_only_read adds_only_emit adds_only_bind adds_only_try adds_only_call
  adds_only_region_check : frame.

(** ** Substrings *)

Lemma app_empty_l (s : string) : "" +:+ s = s.
Proof. reflexivity. Qed.

Lemma app_String a (s t : string) : String a s +:+ t = String a (s +:+ t).
Proof. reflexivity. Qed.

Lemma app_assoc_string (s t u : string) : (s +:+ t) +:+ u = s +:+ t +:+ u.
Proof. induction s as [|a s IH]; [done|]. by rewrite !app_String, IH. Qed.

Lemma is_prefix_app (p s : string) : is_prefix p (p +:+ s) = true.
Proof.
  induction p as [|a p IH]; [done|].
  rewrite app_String. simpl. by rewrite bool_decide_eq_true_2, IH.
Qed.

Lemma contains_is_infix (hay needle : string) :
  contains hay needle → is_infix needle hay = true.
Proof.
  intros (pre & post & ->). induction pre as [|a pre IH].
  - rewrite app_empty_l. destruct needle as [|b needle]; [by destruct post|].
    rewrite app_String. cbn [is_infix].
    by rewrite <-app_String, is_prefix_app.
  - rewrite app_String. cbn [is_infix]. rewrite IH. apply orb_true_r.
Qed.

Lemma contains_refl_mid (pre mid post : string) : contains (pre +:+ mid +:+ post) mid.
Proof. by exists pre, post. Qed.

Lemma contains_app_l (s t needle : string) : contains s needle → contains (s +:+ t) needle.
Proof.
  intros (pre & post & ->). exists pre, (post +:+ t).
  by rewrite !app_assoc_string.
Qed.

Lemma contains_app_r (s t needle : string) : contains t needle → contains (s +:+ t) needle.
Proof.
  intros (pre & post & ->). exists (s +:+ pre), post.
  by rewrite !app_assoc_string.
Qed.

(** ** Splitting at a separator *)

Lemma split_on_nonempty sep s : split_on sep s ≠ [].
Proof.
  destruct s as [|c s]; simpl; [done|].
  case_bool_decide; [done|]. by destruct (split_on sep s).
Qed.

Lemma split_on_single sep s h : split_on sep s = [h] → h = s.
Proof.
  revert h. induction s as [|c s IH]; intros h; simpl.
  - by intros [= <-].
  - case_bool_decide.
    + intros [= _ Hnil]. by apply split_on_nonempty in Hnil.
    + destruct (split_on sep s) as [|h' t] eqn:Hs.
      * by apply split_on_nonempty in Hs.
      * intros [= <- ->]. by rewrite (IH h' eq_refl).
Qed.

Lemma last_cons_nonempty {A} (x d : A) (l : list A) :
  l ≠ [] → List.last (x :: l) d = List.last l d.
Proof. by destruct l. Qed.

(** The last piece of a split is an end of the string that was split. *)
Lemma split_on_last_suffix sep s :
  ∃ pre, s = pre +:+ List.last (split_on sep s) "".
Proof.
  induction s as [|c s (pre & IH)]; cbn [split_on].
  - by exists "".
  - case_bool_decide.
    + rewrite last_cons_nonempty by apply split_on_nonempty.
      exists (String c pre). by rewrite app_String, <-IH.
    + destruct (split_on sep s) as [|h [|h' t]] eqn:Hs.
      * by apply split_on_nonempty in Hs.
      * apply split_on_single in Hs as ->. by exists "".
      * rewrite last_cons_nonempty by done.
        rewrite last_cons_nonempty in IH by done.
        exists (String c pre). by rewrite app_String, <-IH.
Qed.

(** A string without the separator is its own single piece. *)
Lemma split_on_absent (sep : ascii) (s : string) :
  ¬ contains s (String sep "") → split_on sep s = [s].
Proof.
  induction s as [|c s IH]; intros Hno; simpl; [done|].
  case_bool_decide as Hc.
  - subst c. destruct Hno. by exists "", s.
  - rewrite IH; [done|].
    intros (pre & post & ->). apply Hno. by exists (String c pre), post.
Qed.

Lemma role_name_of_suffix role : ∃ pre, role = pre +:+ role_name_of role.
Proof. apply split_on_last_suffix. Qed.

Lemma role_name_of_plain role : ¬ contains role "/" → role_name_of role = role.
Proof. intros Hno. unfold role_name_of. by rewrite split_on_absent. Qed.

Lemma go_to_iam_console_contains name : contains (go_to_iam_console name) name.
Proof. unfold go_to_iam_console. apply contains_refl_mid. Qed.

(** ** What each cell can add to the record *)

Section CellFrames.

Context (P : event → Prop) (w : world).

Lemma adds_only_run argv : P (EvSystem argv) → adds_only P (run w argv).
Proof. intros. unfold run. eauto with frame. Qed.

Lemma adds_only_expand_all line :
  (∀ argv, P (EvSystem argv)) → adds_only P (expand_all w line).
Proof.
  intros HP. induction line as [|x rest IH]; simpl; [eauto with frame|].
  apply adds_only_bind; [|eauto with frame].
  destruct x; simpl; eauto using adds_only_run with frame.
Qed.

Lemma adds_only_bang line :
  (∀ argv, P (EvSystem argv)) → adds_only P (bang w line).
Proof.
  intros HP. unfold bang.
  eauto using adds_only_run, adds_only_expand_all with frame.
Qed.

Lemma adds_only_cell_5 : P EvSession → adds_only P (cell_5 w).
Proof. intros. unfold cell_5. eauto 10 with frame. Qed.

Lemma adds_only_role_resolution :
  P EvPrimaryRole → P (EvFallbackRole "sagemaker") →
  adds_only P (role_resolution w).
Proof. intros. unfold role_resolution. eauto 10 with frame. Qed.

Lemma adds_only_cell_7 :
  adds_only P (role_resolution w) → (∀ t, P (EvPrint t)) →
  adds_only P (cell_7 w).
Proof. intros. unfold cell_7. eauto 10 with frame. Qed.

Lemma adds_only_display_help generate :
  (∀ md, P (EvDisplay md)) → adds_only P (display_help generate).
Proof. intros. unfold display_help. eauto with frame. Qed.

Lemma adds_only_engine_init :
  P (EvEngineInit engine_configuration) → P (EvPrint engine_banner) →
  adds_only P (DeepRacerEngine_init engine_configuration).
Proof. intros. unfold DeepRacerEngine_init. eauto 10 with frame. Qed.

Lemma adds_only_cell_16 :
  P (EvEngineInit engine_configuration) → P (EvPrint engine_banner) →
  adds_only P cell_16.
Proof. intros. unfold cell_16. eauto using adds_only_engine_init with frame. Qed.

Lemma adds_only_cell_20 :
  (∀ argv, P (EvSystem argv)) → adds_only P (cell_20 w).
Proof. intros. unfold cell_20. eauto using adds_only_bang with frame. Qed.

(** The whole notebook adds session, role, print, display, engine
    construction and shell events, and nothing else. *)
Lemma adds_only_run_all :
  adds_only P (role_resolution w) →
  P EvSession → (∀ t, P (EvPrint t)) → (∀ md, P (EvDisplay md)) →
  P (EvEngineInit engine_configuration) → (∀ argv, P (EvSystem argv)) →
  adds_only P (run_all w).
Proof.
  intros. unfold run_all, cell_10, cell_12, cell_14, cell_18, cell_22.
  repeat (apply adds_only_bind; [|intros _]);
    eauto using adds_only_cell_5, adds_only_cell_7, adds_only_display_help,
      adds_only_cell_16, adds_only_bang with frame.
Qed.

End CellFrames.

(** ** Role resolution on each answer of the world *)

Lemma role_resolution_primary w k r :
  sagemaker_get_execution_role w = Returned r →
  role_resolution w k =
    (Returned tt, Kernel (set_sagemaker_role r (vars k)) (log k ++ [EvPrimaryRole])).
Proof.
  intros H. unfold role_resolution, try_except, call, emit, assign, raise.
  unfold mbind, M_bind, mret, M_ret. simpl. by rewrite H.
Qed.

Lemma role_resolution_fallback w k e :
  sagemaker_get_execution_role w = Raised e →
  role_resolution w k =
    match misc_get_execution_role w "sagemaker" with
    | Returned r =>
        (Returned tt, Kernel (set_sagemaker_role r (vars k))
                             (log k ++ [EvPrimaryRole; EvFallbackRole "sagemaker"]))
    | Raised e' =>
        (Raised e', Kernel (vars k)
                           (log k ++ [EvPrimaryRole; EvFallbackRole "sagemaker"]))
    end.
Proof.
  intros H. unfold role_resolution, try_except, call, emit, assign, raise.
  unfold mbind, M_bind, mret, M_ret. simpl. rewrite H. simpl.
  rewrite <-(app_assoc (log k)). simpl.
  by destruct (misc_get_execution_role w "sagemaker").
Qed.

Lemma adds_only_role_resolution_primary P w r :
  sagemaker_get_execution_role w = Returned r → P EvPrimaryRole →
  adds_only P (role_resolution w).
Proof.
  intros H HP k. exists [EvPrimaryRole].
  rewrite (role_resolution_primary w k r H). split; [done | by constructor].
Qed.

(** ** The record only grows *)

Lemma any_event_intro e : any_event e.
Proof. done. Qed.

Lemma bind_log_prefix {A B} (m : M A) (f : A → M B) k :
  (∀ a, adds_only any_event (f a)) →
  log (m k).2 `prefix_of` log ((m ≫= f) k).2.
Proof.
  intros Hf. unfold mbind, M_bind. destruct (m k) as [[a|e] k1]; simpl; [|done].
  destruct (Hf a k1) as (evs & -> & _). by apply prefix_app_r.
Qed.

Lemma adds_only_after_cell_7 w :
  adds_only any_event
    (cell_10;; cell_12;; cell_14;; cell_16;; cell_18;; cell_20 w;; cell_22).
Proof.
  unfold cell_10, cell_12, cell_14, cell_18, cell_22.
  repeat (apply adds_only_bind; [|intros _]);
    eauto using adds_only_display_help, adds_only_cell_16, adds_only_bang,
      any_event_intro with frame.
Qed.

Lemma role_resolution_starts w k :
  (log k ++ [EvPrimaryRole]) `prefix_of` log (role_resolution w k).2.
Proof.
  destruct (sagemaker_get_execution_role w) as [r|e] eqn:H.
  - by rewrite (role_resolution_primary w k r H).
  - rewrite (role_resolution_fallback w k e H).
    destruct (misc_get_execution_role w "sagemaker"); simpl;
      by exists [EvFallbackRole "sagemaker"]; rewrite <-app_assoc.
Qed.

(** ** The region check (cell 5) *)

Lemma cell_5_run w k region :
  sagemaker_session w = Returned (Session region) →
  cell_5 w k =
    region_check region
      (Kernel (set_aws_region region (set_sage_session (Session region) (vars k)))
              (log k ++ [EvSession])).
Proof.
  intros H. unfold cell_5, call, emit, assign, read, raise.
  unfold mbind, M_bind, mret, M_ret. simpl. by rewrite H.
Qed.

Lemma region_check_raises region k :
  region ∉ supported_regions → region_check region k = (Raised region_error, k).
Proof. intros H. unfold region_check. by rewrite bool_decide_eq_false_2. Qed.

Lemma region_check_passes region k :
  region ∈ supported_regions → region_check region k = (Returned tt, k).
Proof. intros H. unfold region_check. by rewrite bool_decide_eq_true_2. Qed.

(** C1. For every region string outside the allow-list of three, the region
    check raises the exception with the fixed message and leaves the kernel
    as it found it; a notebook run whose session reports such a region ends
    with that exception after the session call alone: no role call is made
    and [sagemaker_role] is not bound. *)
Theorem unsupported_region_is_fatal (region : string) (k : kernel) :
  region ∉ supported_regions →
  region_check region k = (Raised region_error, k)
  ∧ region_error =
      PyExn "Exception"
        "This notebook uses RoboMaker which is available only in US East (N. Virginia),US West (Oregon) and EU (Ireland). Please switch to one of these regions."
  ∧ (∀ w, sagemaker_session w = Returned (Session region) →
      run_all w k =
        (Raised region_error,
         Kernel (set_aws_region region (set_sage_session (Session region) (vars k)))
                (log k ++ [EvSession]))
      ∧ Forall (λ e, is_role_call e = false) (added k (run_all w k).2)
      ∧ sagemaker_role (vars (run_all w k).2) = sagemaker_role (vars k)).
Proof.
  intros Hout. split; [by apply region_check_raises|]. split; [done|].
  intros w Hw.
  assert (run_all w k =
    (Raised region_error,
     Kernel (set_aws_region region (set_sage_session (Session region) (vars k)))
            (log k ++ [EvSession]))) as Hrun.
  { unfold run_all. apply bind_raised.
    by rewrite (cell_5_run w k region Hw), region_check_raises. }
  rewrite Hrun. split; [done|]. split; [|done].
  simpl. rewrite added_app. by repeat constructor.
Qed.

Lemma unsupported_region_is_fatal_witness :
  ("ap-southeast-2" ∉ supported_regions)
  ∧ (run_all (sample_world "ap-southeast-2" (Returned Stored.role) (Raised access_denied))
       fresh_kernel).1 = Raised region_error.
Proof.
  assert ("ap-southeast-2" ∉ supported_regions) as Hout.
  { unfold supported_regions. rewrite !elem_of_cons, elem_of_nil.
    by intros [|[|[|]]]. }
  split; [exact Hout|].
  destruct (unsupported_region_is_fatal "ap-southeast-2" fresh_kernel Hout)
    as (_ & _ & Hall).
  destruct (Hall (sample_world "ap-southeast-2" (Returned Stored.role)
                    (Raised access_denied)) eq_refl) as (-> & _).
  reflexivity.
Defined.

(** C7. For each of the three allow-listed regions the region check returns
    without raising, cell 5 completes, and the run goes on with cell 7: the
    primary role call is the next thing recorded. *)
Theorem supported_region_continues (region : string) (k : kernel) :
  region ∈ supported_regions →
  region_check region k = (Returned tt, k)
  ∧ (∀ w, sagemaker_session w = Returned (Session region) →
      let k5 :=
        Kernel (set_aws_region region (set_sage_session (Session region) (vars k)))
               (log k ++ [EvSession]) in
      cell_5 w k = (Returned tt, k5)
      ∧ run_all w k =
          (cell_7 w;; cell_10;; cell_12;; cell_14;; cell_16;; cell_18;;
           cell_20 w;; cell_22) k5
      ∧ (log k ++ [EvSession; EvPrimaryRole]) `prefix_of` log (run_all w k).2).
Proof.
  intros Hin. split; [by apply region_check_passes|].
  intros w Hw k5.
  assert (cell_5 w k = (Returned tt, k5)) as H5.
  { by rewrite (cell_5_run w k region Hw), region_check_passes. }
  assert (run_all w k =
    (cell_7 w;; cell_10;; cell_12;; cell_14;; cell_16;; cell_18;;
     cell_20 w;; cell_22) k5) as Hrun.
  { unfold run_all. exact (bind_returned (cell_5 w) _ k tt k5 H5). }
  split; [done|]. split; [done|].
  rewrite Hrun.
  trans (log (role_resolution w k5).2).
  { replace (log k ++ [EvSession; EvPrimaryRole])
      with (log k5 ++ [EvPrimaryRole]) by (subst k5; simpl; by rewrite <-app_assoc).
    apply role_resolution_starts. }
  trans (log (cell_7 w k5).2).
  { unfold cell_7. apply bind_log_prefix. intros _.
    eauto using any_event_intro with frame. }
  apply bind_log_prefix. intros _. apply adds_only_after_cell_7.
Qed.

Lemma supported_region_continues_witness :
  "eu-west-1" ∈ supported_regions
  ∧ (run_all (sample_world "eu-west-1" (Returned Stored.role) (Raised access_denied))
       fresh_kernel).1 = Returned tt.
Proof.
  assert ("eu-west-1" ∈ supported_regions) as Hin.
  { unfold supported_regions. rewrite !elem_of_cons. auto. }
  split; [exact Hin|].
  destruct (supported_region_continues "eu-west-1" fresh_kernel Hin) as (_ & Hall).
  destruct (Hall (sample_world "eu-west-1" (Returned Stored.role)
                    (Raised access_denied)) eq_refl) as (_ & -> & _).
  vm_compute. reflexivity.
Defined.

(** ** Role resolution (cell 7) *)

(** C2. Role resolution binds [sagemaker_role] to what
    [sagemaker.get_execution_role()] returns whenever that call returns; and
    whenever that call raises, whatever the exception, the result is that of
    [get_execution_role('sagemaker')]: its value is bound when it returns,
    its exception leaves the statement when it raises. *)
Theorem role_resolution_returns (w : world) (k : kernel) :
  (∀ r, sagemaker_get_execution_role w = Returned r →
     role_resolution w k =
       (Returned tt,
        Kernel (set_sagemaker_role r (vars k)) (log k ++ [EvPrimaryRole]))
     ∧ sagemaker_role (vars (role_resolution w k).2) = Some r)
  ∧ (∀ e, sagemaker_get_execution_role w = Raised e →
     match misc_get_execution_role w "sagemaker" with
     | Returned r =>
         (role_resolution w k).1 = Returned tt
         ∧ sagemaker_role (vars (role_resolution w k).2) = Some r
     | Raised e' =>
         (role_resolution w k).1 = Raised e'
         ∧ vars (role_resolution w k).2 = vars k
     end
     ∧ added k (role_resolution w k).2 = [EvPrimaryRole; EvFallbackRole "sagemaker"]).
Proof.
  split.
  - intros r H. by rewrite (role_resolution_primary w k r H).
  - intros e H. rewrite (role_resolution_fallback w k e H).
    destruct (misc_get_execution_role w "sagemaker"); simpl;
      by rewrite added_app.
Qed.

Lemma role_resolution_returns_witness :
  sagemaker_role
    (vars (role_resolution (sample_world "us-east-1" (Returned Stored.role)
                              (Returned "arn:aws:iam::170991494985:role/sagemaker"))
             fresh_kernel).2) = Some Stored.role
  ∧ sagemaker_role
      (vars (role_resolution (sample_world "us-east-1" (Raised no_credentials)
                                (Returned "arn:aws:iam::170991494985:role/sagemaker"))
               fresh_kernel).2) = Some "arn:aws:iam::170991494985:role/sagemaker".
Proof.
  split.
  - pose proof (role_resolution_returns
      (sample_world "us-east-1" (Returned Stored.role)
         (Returned "arn:aws:iam::170991494985:role/sagemaker")) fresh_kernel)
      as [Hprimary _].
    exact (proj2 (Hprimary Stored.role eq_refl)).
  - pose proof (role_resolution_returns
      (sample_world "us-east-1" (Raised no_credentials)
         (Returned "arn:aws:iam::170991494985:role/sagemaker")) fresh_kernel)
      as [_ Hfallback].
    exact (proj2 (proj1 (Hfallback no_credentials eq_refl))).
Defined.

(** C4. When the primary call raises, the fallback is taken whatever the
    exception: two worlds that differ only in the exception raised by the
    primary call give the same result; the statement records the two calls
    and prints nothing about the first failure; and when the fallback call
    raises too, it is the fallback's exception that leaves the statement,
    the original one being dropped. *)
Theorem fallback_is_indiscriminate_and_unguarded (w : world) (k : kernel) (e1 : pyexn) :
  (∀ e2, role_resolution (with_primary (Raised e2) w) k
         = role_resolution (with_primary (Raised e1) w) k)
  ∧ added k (role_resolution (with_primary (Raised e1) w) k).2
      = [EvPrimaryRole; EvFallbackRole "sagemaker"]
  ∧ filter is_print (added k (role_resolution (with_primary (Raised e1) w) k).2) = []
  ∧ (∀ e', misc_get_execution_role w "sagemaker" = Raised e' →
       role_resolution (with_primary (Raised e1) w) k
       = (Raised e', Kernel (vars k)
                            (log k ++ [EvPrimaryRole; EvFallbackRole "sagemaker"]))).
Proof.
  assert (∀ e, role_resolution (with_primary (Raised e) w) k =
    match misc_get_execution_role w "sagemaker" with
    | Returned r =>
        (Returned tt, Kernel (set_sagemaker_role r (vars k))
                             (log k ++ [EvPrimaryRole; EvFallbackRole "sagemaker"]))
    | Raised e' =>
        (Raised e', Kernel (vars k)
                           (log k ++ [EvPrimaryRole; EvFallbackRole "sagemaker"]))
    end) as Hrun.
  { intros e.
    by rewrite (role_resolution_fallback (with_primary (Raised e) w) k e eq_refl). }
  split; [intros e2; by rewrite !Hrun|].
  rewrite Hrun.
  assert (added k (match misc_get_execution_role w "sagemaker" with
    | Returned r =>
        (Returned tt, Kernel (set_sagemaker_role r (vars k))
                             (log k ++ [EvPrimaryRole; EvFallbackRole "sagemaker"]))
    | Raised e' =>
        (Raised e', Kernel (vars k)
                           (log k ++ [EvPrimaryRole; EvFallbackRole "sagemaker"]))
    end).2 = [EvPrimaryRole; EvFallbackRole "sagemaker"]) as Hadded.
  { destruct (misc_get_execution_role w "sagemaker"); apply added_app. }
  split; [done|]. split; [by rewrite Hadded|].
  by intros e' ->.
Qed.

Lemma fallback_is_indiscriminate_and_unguarded_witness :
  role_resolution
    (with_primary (Raised no_credentials)
       (sample_world "us-east-1" (Returned Stored.role) (Raised access_denied)))
    fresh_kernel
  = (Raised access_denied,
     Kernel fresh_namespace [EvPrimaryRole; EvFallbackRole "sagemaker"]).
Proof.
  pose proof (fallback_is_indiscriminate_and_unguarded
    (sample_world "us-east-1" (Returned Stored.role) (Raised access_denied))
    fresh_kernel no_credentials) as (_ & _ & _ & Hboth).
  exact (Hboth access_denied eq_refl).
Defined.

(** C10. When [sagemaker.get_execution_role()] returns, the statement
    records the primary call alone: [get_execution_role('sagemaker')] is not
    called, the result does not depend on what that function would do, and
    no fallback call appears in cell 7 or anywhere in a notebook run. *)
Theorem primary_success_skips_fallback (w : world) (k : kernel) (r : string) :
  sagemaker_get_execution_role w = Returned r →
  added k (role_resolution w k).2 = [EvPrimaryRole]
  ∧ (∀ f, role_resolution (with_fallback f w) k = role_resolution w k)
  ∧ Forall (λ e, is_fallback_call e = false) (added k (cell_7 w k).2)
  ∧ Forall (λ e, is_fallback_call e = false) (added k (run_all w k).2).
Proof.
  intros H.
  assert (adds_only (λ e, is_fallback_call e = false) (role_resolution w)) as Hrole.
  { by apply (adds_only_role_resolution_primary _ w r). }
  split; [rewrite (role_resolution_primary w k r H); apply added_app|].
  split.
  { intros f. by rewrite (role_resolution_primary (with_fallback f w) k r H),
      (role_resolution_primary w k r H). }
  split; apply adds_only_added.
  - by apply adds_only_cell_7.
  - by apply adds_only_run_all.
Qed.

Lemma primary_success_skips_fallback_witness :
  added fresh_kernel
    (role_resolution (sample_world "us-west-2" (Returned Stored.role)
                        (Raised access_denied)) fresh_kernel).2
  = [EvPrimaryRole].
Proof.
  exact (proj1 (primary_success_skips_fallback
    (sample_world "us-west-2" (Returned Stored.role) (Raised access_denied))
    fresh_kernel Stored.role eq_refl)).
Defined.

(** ** Markdown help (cells 10, 12 and 14) *)

(** The generators give back, character for character, the three outputs
    stored in the notebook when they are applied to the role stored with
    cell 7. *)
Lemma help_reproduces_stored_outputs :
  generate_help_for_robomaker_trust_relationship Stored.role = Stored.cell_10_markdown
  ∧ generate_s3_write_permission_for_sagemaker_role Stored.role = Stored.cell_12_markdown
  ∧ generate_kinesis_create_permission_for_sagemaker_role Stored.role
    = Stored.cell_14_markdown.
Proof. repeat split; vm_compute; reflexivity. Qed.

Lemma stored_role_is_printed :
  Stored.cell_7_stdout = ("Using Sagemaker IAM role arn: " +:+ LF +:+ Stored.role) +:+ LF.
Proof. vm_compute. reflexivity. Qed.

Lemma display_help_run generate k role :
  sagemaker_role (vars k) = Some role →
  display_help generate k =
    (Returned tt, Kernel (vars k) (log k ++ [EvDisplay (generate role)])).
Proof.
  intros H. unfold display_help, read, emit.
  unfold mbind, M_bind. by rewrite H.
Qed.

(** C6, as stated, fails on the role stored in the notebook: none of the
    three texts contains that role identifier; the stored outputs show its
    last path segment only. *)
Lemma help_omits_role_identifier :
  ¬ contains (generate_help_for_robomaker_trust_relationship Stored.role) Stored.role
  ∧ ¬ contains (generate_s3_write_permission_for_sagemaker_role Stored.role) Stored.role
  ∧ ¬ contains (generate_kinesis_create_permission_for_sagemaker_role Stored.role)
        Stored.role.
Proof.
  repeat split; intros H%contains_is_infix; vm_compute in H; discriminate.
Qed.

(** C6, amended. For every role identifier, each of the three generators
    produces a text that contains the role name verbatim, the role name
    being the end of the identifier after its last [/] and the identifier
    itself when it has no [/]; the cell that shows the text adds one display
    event and changes no variable. *)
Theorem help_contains_role_name (role : string) :
  contains (generate_help_for_robomaker_trust_relationship role) (role_name_of role)
  ∧ contains (generate_s3_write_permission_for_sagemaker_role role) (role_name_of role)
  ∧ contains (generate_kinesis_create_permission_for_sagemaker_role role)
      (role_name_of role)
  ∧ (∃ pre, role = pre +:+ role_name_of role)
  ∧ (¬ contains role "/" → role_name_of role = role)
  ∧ (∀ k, sagemaker_role (vars k) = Some role →
       cell_10 k =
         (Returned tt,
          Kernel (vars k)
            (log k ++ [EvDisplay (generate_help_for_robomaker_trust_relationship role)]))
       ∧ cell_12 k =
         (Returned tt,
          Kernel (vars k)
            (log k ++ [EvDisplay (generate_s3_write_permission_for_sagemaker_role role)]))
       ∧ cell_14 k =
         (Returned tt,
          Kernel (vars k)
            (log k ++
               [EvDisplay (generate_kinesis_create_permission_for_sagemaker_role role)]))).
Proof.
  repeat split.
  - apply contains_app_l, go_to_iam_console_contains.
  - apply contains_app_l, go_to_iam_console_contains.
  - apply contains_app_l, go_to_iam_console_contains.
  - apply role_name_of_suffix.
  - apply role_name_of_plain.
  - by apply display_help_run.
  - by apply display_help_run.
  - by apply display_help_run.
Qed.

Lemma help_contains_role_name_witness :
  role_name_of "sagemaker" = "sagemaker"
  ∧ cell_10 (Kernel (set_sagemaker_role "sagemaker" fresh_namespace) [])
    = (Returned tt,
       Kernel (set_sagemaker_role "sagemaker" fresh_namespace)
         [EvDisplay (generate_help_for_robomaker_trust_relationship "sagemaker")]).
Proof.
  pose proof (help_contains_role_name "sagemaker") as (_ & _ & _ & _ & Hplain & Hcells).
  split.
  - apply Hplain. intros H%contains_is_infix. vm_compute in H. discriminate.
  - exact (proj1 (Hcells (Kernel (set_sagemaker_role "sagemaker" fresh_namespace) [])
                    eq_refl)).
Defined.

(** ** The engine (cells 16, 18 and 22) *)

Lemma engine_init_run config k :
  DeepRacerEngine_init config k =
    (Returned (Engine config),
     Kernel (vars k) (log k ++ [EvEngineInit config; EvPrint engine_banner])).
Proof.
  unfold DeepRacerEngine_init, emit. unfold mbind, M_bind, mret, M_ret. simpl.
  by rewrite <-app_assoc.
Qed.

Lemma cell_16_run k :
  cell_16 k =
    (Returned tt,
     Kernel (set_deepRacer (Engine engine_configuration) (vars k))
            (log k ++ [EvEngineInit engine_configuration; EvPrint engine_banner])).
Proof.
  unfold cell_16. by rewrite (bind_returned _ _ _ _ _ (engine_init_run _ k)).
Qed.

Lemma stored_banner_is_printed : Stored.cell_16_stdout = engine_banner +:+ LF.
Proof. reflexivity. Qed.

(** C5. Constructing the engine on [{'job_name': 'None'}] returns the
    object without raising and records the construction and the banner
    only; neither cell 16 nor a whole run of the notebook as it stands,
    where both cleanup lines are commented out, issues a delete request; a
    delete request appears once a cleanup method is called on the object. *)
Theorem engine_construction_deletes_nothing (w : world) (k : kernel) :
  DeepRacerEngine_init engine_configuration k =
    (Returned (Engine engine_configuration),
     Kernel (vars k)
            (log k ++ [EvEngineInit engine_configuration; EvPrint engine_banner]))
  ∧ Forall (λ e, is_deletion e = false) (added k (cell_16 k).2)
  ∧ Forall (λ e, is_deletion e = false) (added k (run_all w k).2)
  ∧ added (cell_16 k).2 ((cell_16;; cell_18_enabled) k).2 = [EvDeleteSimulations]
  ∧ added (cell_16 k).2 ((cell_16;; cell_22_enabled) k).2 = [EvDeleteS3Resources].
Proof.
  split; [apply engine_init_run|].
  split; [apply adds_only_added, adds_only_cell_16; done|].
  split.
  { apply adds_only_added, adds_only_run_all; try done.
    by apply adds_only_role_resolution. }
  split.
  - rewrite (bind_returned _ _ _ _ _ (cell_16_run k)), cell_16_run.
    apply added_app.
  - rewrite (bind_returned _ _ _ _ _ (cell_16_run k)), cell_16_run.
    apply added_app.
Qed.

(** C9. The configuration mapping handed to the constructor binds
    [job_name] to the string of the four characters N, o, n, e, which is
    not the null value: cell 16 constructs the engine on that mapping, and
    every engine construction in a notebook run receives it. *)
Theorem job_name_is_the_string_None (w : world) (k : kernel) :
  engine_configuration !! "job_name" = Some (PyStr "None")
  ∧ String.length "None" = 4
  ∧ PyStr "None" ≠ PyNone
  ∧ dom engine_configuration = ({[ "job_name" ]} : gset string)
  ∧ added k (cell_16 k).2 = [EvEngineInit engine_configuration; EvPrint engine_banner]
  ∧ deepRacer (vars (cell_16 k).2) = Some (Engine engine_configuration)
  ∧ Forall (λ e, ∀ config, e = EvEngineInit config →
                 config !! "job_name" = Some (PyStr "None"))
      (added k (run_all w k).2).
Proof.
  assert (engine_configuration !! "job_name" = Some (PyStr "None")) as Hjob.
  { unfold engine_configuration. apply lookup_singleton_eq. }
  split; [done|]. split; [done|]. split; [done|].
  split; [unfold engine_configuration; apply dom_singleton_L|].
  rewrite cell_16_run. split; [apply added_app|]. split; [done|].
  apply adds_only_added, adds_only_run_all;
    [apply adds_only_role_resolution|..]; intros; by simplify_eq.
Qed.

(** ** Docker cleanup (cell 20) *)

(** C3, as stated, fails: both lines carry flags. *)
Lemma cleanup_lines_carry_flags :
  ¬ no_flags docker_rm_line ∧ ¬ no_flags docker_rmi_line.
Proof. split; intros H; vm_compute in H; discriminate. Qed.

(** C3, amended. The two cleanup lines force removal with [-f]: the first
    passes to [docker rm -f] every word printed by [docker ps -a -q], the
    second passes to [docker rmi -f] every word printed by
    [docker images -q]; there is no error handling, for whatever the exit
    statuses all four commands run in order and the cell returns without
    raising. *)
Theorem docker_cleanup_is_forced_and_unchecked (w : world) (k : kernel) :
  flags_of docker_rm_line = ["-f"; "-a"; "-q"]
  ∧ flags_of docker_rmi_line = ["-f"; "-q"]
  ∧ cell_20 w k =
      (Returned tt,
       Kernel (vars k)
         (log k ++
            [EvSystem ["docker"; "ps"; "-a"; "-q"];
             EvSystem (["docker"; "rm"; "-f"]
                       ++ (system w ["docker"; "ps"; "-a"; "-q"]).2);
             EvSystem ["docker"; "images"; "-q"];
             EvSystem (["docker"; "rmi"; "-f"]
                       ++ (system w ["docker"; "images"; "-q"]).2)])).
Proof.
  split; [done|]. split; [done|].
  unfold cell_20, bang, docker_rm_line, docker_rmi_line. simpl.
  unfold run, emit. unfold mbind, M_bind, mret, M_ret. simpl.
  rewrite <-!app_assoc. simpl. by rewrite !app_nil_r.
Qed.

(** On a machine where image removal fails, the cell still returns. *)
Example docker_cleanup_on_failure :
  cell_20 (World (Returned (Session "us-east-1")) (Returned Stored.role)
             (λ _, Raised access_denied) busy_docker) fresh_kernel
  = (Returned tt,
     Kernel fresh_namespace
       [EvSystem ["docker"; "ps"; "-a"; "-q"];
        EvSystem ["docker"; "rm"; "-f"; "13c58ab56e75"; "3ba902e80d7c"];
        EvSystem ["docker"; "images"; "-q"];
        EvSystem ["docker"; "rmi"; "-f"; "7b51f08efa79"]]).
Proof. vm_compute. reflexivity. Qed.

(** ** Cells 5 to 14 run in order *)

Lemma role_resolution_run w k :
  role_resolution w k =
    match resolved_role w with
    | Returned r =>
        (Returned tt, Kernel (set_sagemaker_role r (vars k)) (log k ++ role_calls w))
    | Raised e => (Raised e, Kernel (vars k) (log k ++ role_calls w))
    end.
Proof.
  unfold resolved_role, role_calls.
  destruct (sagemaker_get_execution_role w) as [r|e] eqn:H.
  - by apply role_resolution_primary.
  - rewrite (role_resolution_fallback w k e H).
    by destruct (misc_get_execution_role w "sagemaker").
Qed.

Lemma cell_7_returns w k r :
  resolved_role w = Returned r →
  cell_7 w k =
    (Returned tt,
     Kernel (set_sagemaker_role r (vars k))
            (log k ++ role_calls w ++ [EvPrint (role_line r)])).
Proof.
  intros H. unfold cell_7.
  pose proof (role_resolution_run w k) as Hrun. rewrite H in Hrun.
  rewrite (bind_returned _ _ _ _ _ Hrun).
  unfold read, emit. unfold mbind, M_bind. simpl.
  by rewrite <-app_assoc.
Qed.

Lemma cell_7_raises w k e :
  resolved_role w = Raised e →
  cell_7 w k = (Raised e, Kernel (vars k) (log k ++ role_calls w)).
Proof.
  intros H. unfold cell_7.
  pose proof (role_resolution_run w k) as Hrun. rewrite H in Hrun.
  by rewrite (bind_raised _ _ _ _ _ Hrun).
Qed.

Lemma cell_5_session_raised w k e :
  sagemaker_session w = Raised e →
  cell_5 w k = (Raised e, Kernel (vars k) (log k ++ [EvSession])).
Proof.
  intros H. unfold cell_5, call, emit, raise.
  unfold mbind, M_bind. simpl. by rewrite H.
Qed.

Lemma cell_5_region_rejected w k s :
  sagemaker_session w = Returned s → boto_region_name s ∉ supported_regions →
  cell_5 w k =
    (Raised region_error, Kernel (after_cell_5 s (vars k)) (log k ++ [EvSession])).
Proof.
  intros H Hout. destruct s as [region].
  by rewrite (cell_5_run w k region H), region_check_raises.
Qed.

Lemma cell_5_region_accepted w k s :
  sagemaker_session w = Returned s → boto_region_name s ∈ supported_regions →
  cell_5 w k =
    (Returned tt, Kernel (after_cell_5 s (vars k)) (log k ++ [EvSession])).
Proof.
  intros H Hin. destruct s as [region].
  by rewrite (cell_5_run w k region H), region_check_passes.
Qed.

Lemma help_cells_run k r :
  sagemaker_role (vars k) = Some r →
  (cell_10;; cell_12;; cell_14) k =
    (Returned tt, Kernel (vars k) (log k ++ help_displays r)).
Proof.
  intros H. unfold cell_10, cell_12, cell_14.
  rewrite (bind_returned _ _ _ _ _
    (display_help_run generate_help_for_robomaker_trust_relationship k r H)).
  rewrite (bind_returned _ _ _ _ _
    (display_help_run generate_s3_write_permission_for_sagemaker_role
       (Kernel (vars k) _) r H)).
  rewrite (display_help_run generate_kinesis_create_permission_for_sagemaker_role
    (Kernel (vars k) _) r H). simpl.
  by rewrite <-!app_assoc.
Qed.

Lemma permission_setup_session_raised w k e :
  sagemaker_session w = Raised e →
  permission_setup w k = (Raised e, Kernel (vars k) (log k ++ [EvSession])).
Proof.
  intros H. unfold permission_setup.
  by rewrite (bind_raised _ _ _ _ _ (cell_5_session_raised w k e H)).
Qed.

Lemma permission_setup_region_rejected w k s :
  sagemaker_session w = Returned s → boto_region_name s ∉ supported_regions →
  permission_setup w k =
    (Raised region_error, Kernel (after_cell_5 s (vars k)) (log k ++ [EvSession])).
Proof.
  intros H Hout. unfold permission_setup.
  by rewrite (bind_raised _ _ _ _ _ (cell_5_region_rejected w k s H Hout)).
Qed.

Lemma permission_setup_role_failed w k s e :
  sagemaker_session w = Returned s → boto_region_name s ∈ supported_regions →
  resolved_role w = Raised e →
  permission_setup w k =
    (Raised e,
     Kernel (after_cell_5 s (vars k)) (log k ++ EvSession :: role_calls w)).
Proof.
  intros H Hin Hrole. unfold permission_setup.
  rewrite (bind_returned _ _ _ _ _ (cell_5_region_accepted w k s H Hin)).
  rewrite (bind_raised _ _ _ _ _ (cell_7_raises w _ e Hrole)). simpl.
  by rewrite <-app_assoc.
Qed.

Lemma permission_setup_succeeds w k s r :
  sagemaker_session w = Returned s → boto_region_name s ∈ supported_regions →
  resolved_role w = Returned r →
  permission_setup w k =
    (Returned tt,
     Kernel (set_sagemaker_role r (after_cell_5 s (vars k)))
            (log k ++ EvSession :: role_calls w
                   ++ EvPrint (role_line r) :: help_displays r)).
Proof.
  intros H Hin Hrole. unfold permission_setup.
  rewrite (bind_returned _ _ _ _ _ (cell_5_region_accepted w k s H Hin)).
  rewrite (bind_returned _ _ _ _ _ (cell_7_returns w _ r Hrole)).
  rewrite (help_cells_run (Kernel (set_sagemaker_role r _) _) r eq_refl). simpl.
  rewrite <-!app_assoc. simpl. by rewrite <-?app_assoc.
Qed.

Lemma filter_role_calls w : filter is_role_call (role_calls w) = role_calls w.
Proof. unfold role_calls. by destruct (sagemaker_get_execution_role w). Qed.

Lemma added_cons_app k vs e evs : added k (Kernel vs (log k ++ e :: evs)) = e :: evs.
Proof. apply added_app. Qed.

Lemma cell_20_run w k :
  cell_20 w k =
    (Returned tt,
     Kernel (vars k)
       (log k ++
          [EvSystem ["docker"; "ps"; "-a"; "-q"];
           EvSystem (["docker"; "rm"; "-f"]
                     ++ (system w ["docker"; "ps"; "-a"; "-q"]).2);
           EvSystem ["docker"; "images"; "-q"];
           EvSystem (["docker"; "rmi"; "-f"]
                     ++ (system w ["docker"; "images"; "-q"]).2)])).
Proof.
  unfold cell_20, bang, docker_rm_line, docker_rmi_line. simpl.
  unfold run, emit. unfold mbind, M_bind, mret, M_ret. simpl.
  rewrite <-!app_assoc. simpl. by rewrite !app_nil_r.
Qed.

Lemma bind_assoc_run {A B C} (m : M A) (f : A → M B) (g : B → M C) k :
  ((m ≫= f) ≫= g) k = (m ≫= λ a, f a ≫= g) k.
Proof. unfold mbind, M_bind. by destruct (m k) as [[a|e] k1]. Qed.

(** "Run All" is the permission setup followed by the clean-up cells. *)
Lemma run_all_after_setup w k :
  run_all w k = (permission_setup w;; cell_16;; cell_18;; cell_20 w;; cell_22) k.
Proof.
  unfold run_all, permission_setup. unfold mbind, M_bind.
  destruct (cell_5 w k) as [[[]|e] k5]; [|done].
  destruct (cell_7 w k5) as [[[]|e] k7]; [|done].
  destruct (cell_10 k7) as [[[]|e] k10]; [|done].
  destruct (cell_12 k10) as [[[]|e] k12]; [|done].
  by destruct (cell_14 k12) as [[[]|e] k14].
Qed.

(** ** Further properties of the cells *)

(** X1. When [sagemaker.session.Session()] raises, cell 5 ends with that
    exception having bound no variable, and so does a whole run: the only
    thing recorded is the session call. *)
Theorem session_failure_ends_the_run (w : world) (k : kernel) (e : pyexn) :
  sagemaker_session w = Raised e →
  cell_5 w k = (Raised e, Kernel (vars k) (log k ++ [EvSession]))
  ∧ run_all w k = (Raised e, Kernel (vars k) (log k ++ [EvSession])).
Proof.
  intros H. split; [by apply cell_5_session_raised|].
  unfold run_all.
  by rewrite (bind_raised _ _ _ _ _ (cell_5_session_raised w k e H)).
Qed.

Lemma session_failure_ends_the_run_witness :
  run_all (World (Raised no_credentials) (Returned Stored.role)
             (λ _, Raised access_denied) busy_docker) fresh_kernel
  = (Raised no_credentials, Kernel fresh_namespace [EvSession]).
Proof.
  exact (proj2 (session_failure_ends_the_run
    (World (Raised no_credentials) (Returned Stored.role)
       (λ _, Raised access_denied) busy_docker)
    fresh_kernel no_credentials eq_refl)).
Defined.

(** X2. When the session returns with a supported region and one of the
    two role calls returns, cells 5 to 14 run to the end and record, in this
    order, the session call, the role calls, the printed line and the three
    help displays; the line and the three displays are all made for the role
    that is then bound to [sagemaker_role]. *)
Theorem permission_setup_trace (w : world) (k : kernel) (s : session) (r : string) :
  sagemaker_session w = Returned s →
  boto_region_name s ∈ supported_regions →
  resolved_role w = Returned r →
  (permission_setup w k).1 = Returned tt
  ∧ added k (permission_setup w k).2
    = EvSession :: role_calls w ++ EvPrint (role_line r) :: help_displays r
  ∧ vars (permission_setup w k).2
    = Namespace (Some s) (Some (boto_region_name s)) (Some r) (deepRacer (vars k)).
Proof.
  intros Hs Hin Hr. rewrite (permission_setup_succeeds w k s r Hs Hin Hr).
  split; [done|]. split; [apply added_app | done].
Qed.

Lemma permission_setup_trace_witness :
  added fresh_kernel
    (permission_setup
       (sample_world "us-east-1" (Raised no_credentials) (Returned Stored.role))
       fresh_kernel).2
  = [EvSession; EvPrimaryRole; EvFallbackRole "sagemaker";
     EvPrint (role_line Stored.role);
     EvDisplay (generate_help_for_robomaker_trust_relationship Stored.role);
     EvDisplay (generate_s3_write_permission_for_sagemaker_role Stored.role);
     EvDisplay (generate_kinesis_create_permission_for_sagemaker_role Stored.role)].
Proof.
  assert ("us-east-1" ∈ supported_regions) as Hin.
  { unfold supported_regions. rewrite !elem_of_cons. auto. }
  exact (proj1 (proj2 (permission_setup_trace
    (sample_world "us-east-1" (Raised no_credentials) (Returned Stored.role))
    fresh_kernel (Session "us-east-1") Stored.role eq_refl Hin eq_refl))).
Defined.



(** X4. Whenever cell 7 returns, it has printed exactly one line, as the
    last thing it did, and the role in that line is the one it has bound to
    [sagemaker_role]. *)
Theorem cell_7_prints_the_bound_role (w : world) (k : kernel) :
  (cell_7 w k).1 = Returned tt →
  ∃ r, sagemaker_role (vars (cell_7 w k).2) = Some r
       ∧ filter is_print (added k (cell_7 w k).2) = [EvPrint (role_line r)]
       ∧ List.last (log (cell_7 w k).2) EvSession = EvPrint (role_line r).
Proof.
  destruct (resolved_role w) as [r|e] eqn:Hr.
  - rewrite (cell_7_returns w k r Hr). intros _. exists r.
    split; [done|]. simpl. split.
    + rewrite added_app, filter_app. unfold role_calls.
      by destruct (sagemaker_get_execution_role w).
    + by rewrite !app_assoc, last_last.
  - by rewrite (cell_7_raises w k e Hr).
Qed.

Lemma cell_7_prints_the_bound_role_witness :
  ∃ r, sagemaker_role
         (vars (cell_7 (sample_world "us-east-1" (Returned Stored.role)
                          (Raised access_denied)) fresh_kernel).2) = Some r
       ∧ filter is_print
           (added fresh_kernel
              (cell_7 (sample_world "us-east-1" (Returned Stored.role)
                         (Raised access_denied)) fresh_kernel).2)
         = [EvPrint (role_line r)]
       ∧ List.last
           (log (cell_7 (sample_world "us-east-1" (Returned Stored.role)
                           (Raised access_denied)) fresh_kernel).2) EvSession
         = EvPrint (role_line r).
Proof.
  exact (cell_7_prints_the_bound_role
    (sample_world "us-east-1" (Returned Stored.role) (Raised access_denied))
    fresh_kernel eq_refl).
Defined.

(** X5. When neither role call returns, cell 7 ends with the exception of
    the fallback call, prints nothing and leaves every variable as it was.
    A help cell run afterwards acts on what [sagemaker_role] held before:
    it raises [NameError] when the name was unbound and displays the help
    for the previous role when one was left from an earlier execution. *)
Theorem help_after_failed_resolution (w : world) (k : kernel) (e : pyexn) :
  resolved_role w = Raised e →
  (cell_7 w k).1 = Raised e
  ∧ vars (cell_7 w k).2 = vars k
  ∧ filter is_print (added k (cell_7 w k).2) = []
  ∧ cell_10 (cell_7 w k).2 =
      match sagemaker_role (vars k) with
      | Some previous =>
          (Returned tt,
           Kernel (vars k)
             (log (cell_7 w k).2 ++
                [EvDisplay (generate_help_for_robomaker_trust_relationship previous)]))
      | None => (Raised (name_error "sagemaker_role"), (cell_7 w k).2)
      end.
Proof.
  intros Hr. rewrite (cell_7_raises w k e Hr). simpl.
  split; [done|]. split; [done|]. split.
  - rewrite added_app. unfold role_calls.
    by destruct (sagemaker_get_execution_role w).
  - unfold cell_10, display_help, read, emit. unfold mbind, M_bind. simpl.
    by destruct (sagemaker_role (vars k)).
Qed.

Lemma help_after_failed_resolution_witness :
  cell_10
    (cell_7 (sample_world "us-east-1" (Raised no_credentials) (Raised access_denied))
       fresh_kernel).2
  = (Raised (name_error "sagemaker_role"),
     Kernel fresh_namespace [EvPrimaryRole; EvFallbackRole "sagemaker"]).
Proof.
  exact (proj2 (proj2 (proj2 (help_after_failed_resolution
    (sample_world "us-east-1" (Raised no_credentials) (Raised access_denied))
    fresh_kernel access_denied eq_refl)))).
Defined.


(** X7. On a machine where the two listings print nothing, the removal
    commands are run all the same, each without any operand, and the cell
    returns. *)
Theorem cleanup_with_nothing_to_remove (w : world) (k : kernel) :
  (system w ["docker"; "ps"; "-a"; "-q"]).2 = [] →
  (system w ["docker"; "images"; "-q"]).2 = [] →
  cell_20 w k =
    (Returned tt,
     Kernel (vars k)
       (log k ++
          [EvSystem ["docker"; "ps"; "-a"; "-q"];
           EvSystem ["docker"; "rm"; "-f"];
           EvSystem ["docker"; "images"; "-q"];
           EvSystem ["docker"; "rmi"; "-f"]])).
Proof. intros Hps Himages. by rewrite cell_20_run, Hps, Himages. Qed.

Lemma cleanup_with_nothing_to_remove_witness :
  cell_20 (World (Returned (Session "us-east-1")) (Returned Stored.role)
             (λ _, Raised access_denied) empty_docker) fresh_kernel
  = (Returned tt,
     Kernel fresh_namespace
       [EvSystem ["docker"; "ps"; "-a"; "-q"];
        EvSystem ["docker"; "rm"; "-f"];
        EvSystem ["docker"; "images"; "-q"];
        EvSystem ["docker"; "rmi"; "-f"]]).
Proof.
  exact (cleanup_with_nothing_to_remove
    (World (Returned (Session "us-east-1")) (Returned Stored.role)
       (λ _, Raised access_denied) empty_docker)
    fresh_kernel eq_refl eq_refl).
Defined.

(** X8. In cells 5 to 14 the primary role function is called at most once
    and [get_execution_role] at most once, with the argument ['sagemaker']
    and after the primary call; a role call is made only when the session
    returned with a supported region, and the fallback call only when the
    primary call raised. *)
Theorem role_call_discipline (w : world) (k : kernel) :
  (filter is_role_call (added k (permission_setup w k).2) = []
   ∨ filter is_role_call (added k (permission_setup w k).2) = [EvPrimaryRole]
   ∨ filter is_role_call (added k (permission_setup w k).2)
     = [EvPrimaryRole; EvFallbackRole "sagemaker"])
  ∧ (filter is_role_call (added k (permission_setup w k).2) ≠ [] →
     ∃ s, sagemaker_session w = Returned s
          ∧ boto_region_name s ∈ supported_regions)
  ∧ (EvFallbackRole "sagemaker" ∈ added k (permission_setup w k).2 →
     ∃ e, sagemaker_get_execution_role w = Raised e).
Proof.
  destruct (sagemaker_session w) as [s|e] eqn:Hs.
  - destruct (decide (boto_region_name s ∈ supported_regions)) as [Hin|Hout].
    + assert (∃ evs, added k (permission_setup w k).2
                     = EvSession :: role_calls w ++ evs
                     ∧ filter is_role_call evs = []
                     ∧ EvFallbackRole "sagemaker" ∉ evs) as (evs & -> & Hevs & Hnot).
      { destruct (resolved_role w) as [r|e] eqn:Hr.
        - rewrite (permission_setup_succeeds w k s r Hs Hin Hr). simpl.
          rewrite added_app. eexists. split; [done|]. split; [done|].
          unfold help_displays. rewrite !elem_of_cons, elem_of_nil.
          by intros [|[|[|[|]]]].
        - rewrite (permission_setup_role_failed w k s e Hs Hin Hr). simpl.
          rewrite added_app. exists []. rewrite app_nil_r.
          split; [done|]. split; [done|]. apply not_elem_of_nil. }
      assert (filter is_role_call (EvSession :: role_calls w ++ evs) = role_calls w)
        as ->.
      { rewrite filter_cons_False by (by intros []).
        by rewrite filter_app, filter_role_calls, Hevs, app_nil_r. }
      split; [|split].
      * unfold role_calls. destruct (sagemaker_get_execution_role w); auto.
      * intros _. by exists s.
      * rewrite elem_of_cons, elem_of_app. unfold role_calls.
        destruct (sagemaker_get_execution_role w) as [r|e]; [|by exists e].
        rewrite elem_of_cons, elem_of_nil. by intros [|[[|[]]|]].
    + rewrite (permission_setup_region_rejected w k s Hs Hout). simpl.
      rewrite added_app. split; [by left|]. split; [done|].
      rewrite elem_of_cons, elem_of_nil. by intros [|].
  - rewrite (permission_setup_session_raised w k e Hs). simpl.
    rewrite added_app. split; [by left|]. split; [done|].
    rewrite elem_of_cons, elem_of_nil. by intros [|].
Qed.

Lemma role_call_discipline_witness :
  ∃ s, sagemaker_session
         (sample_world "eu-west-1" (Raised no_credentials) (Returned Stored.role))
       = Returned s
       ∧ boto_region_name s ∈ supported_regions.
Proof.
  apply (proj1 (proj2 (role_call_discipline
    (sample_world "eu-west-1" (Raised no_credentials) (Returned Stored.role))
    fresh_kernel))).
  vm_compute. discriminate.
Defined.

(** X9. The region check guards a run in order only.  After cell 5 has
    rejected the region, the session and the region stay bound, and cell 7
    executed by hand resolves and binds the role as it would have after an
    accepted region. *)
Theorem region_check_guards_run_in_order_only
    (w : world) (k : kernel) (s : session) (r : string) :
  sagemaker_session w = Returned s →
  boto_region_name s ∉ supported_regions →
  resolved_role w = Returned r →
  (cell_5 w k).1 = Raised region_error
  ∧ aws_region (vars (cell_5 w k).2) = Some (boto_region_name s)
  ∧ (cell_7 w (cell_5 w k).2).1 = Returned tt
  ∧ sagemaker_role (vars (cell_7 w (cell_5 w k).2).2) = Some r.
Proof.
  intros Hs Hout Hr. rewrite (cell_5_region_rejected w k s Hs Hout). simpl.
  by rewrite (cell_7_returns w _ r Hr).
Qed.

Lemma region_check_guards_run_in_order_only_witness :
  sagemaker_role
    (vars (cell_7 (sample_world "ap-southeast-2" (Returned Stored.role)
                     (Raised access_denied))
             (cell_5 (sample_world "ap-southeast-2" (Returned Stored.role)
                        (Raised access_denied)) fresh_kernel).2).2)
  = Some Stored.role.
Proof.
  assert ("ap-southeast-2" ∉ supported_regions) as Hout.
  { unfold supported_regions. rewrite !elem_of_cons, elem_of_nil.
    by intros [|[|[|]]]. }
  exact (proj2 (proj2 (proj2 (region_check_guards_run_in_order_only
    (sample_world "ap-southeast-2" (Returned Stored.role) (Raised access_denied))
    fresh_kernel (Session "ap-southeast-2") Stored.role eq_refl Hout eq_refl)))).
Defined.
